(** * write_instructions.py: a verified model of the one-file writer

    The script binds a text literal to [content], opens a fixed path in text
    mode ['w'] with [encoding='utf-8'], writes the text through the file
    object inside a [with] block and prints ['done'] with [len(content)].

    The development embeds the script over a small model of the Python
    run time it calls into: text strings as sequences of code points, the
    UTF-8 codec, the newline translation of text-mode files, a file system
    with directories, permissions and finite free space, the table of open
    file objects, and standard output. *)

From stdpp Require Import gmap strings list.
From Stdlib Require Import ZArith Lia Ascii DecimalString DecimalNat.

(** ** The UTF-8 codec ([encoding='utf-8'])

    Code points and bytes are integers.  [encode_char] is the strict
    encoder of Python's ['utf-8'] codec: it refuses the surrogate range
    U+D800..U+DFFF.  [decode] is the strict decoder: no overlong forms, no
    surrogates, nothing above U+10FFFF. *)
Module Utf8.
Local Open Scope Z_scope.

Definition is_surrogate (c : Z) : bool := (0xD800 <=? c) && (c <=? 0xDFFF).

Definition encode_char (c : Z) : option (list Z) :=
  if c <? 0 then None
  else if c <? 0x80 then Some [c]
  else if c <? 0x800 then Some [0xC0 + c / 64; 0x80 + c mod 64]
  else if c <? 0x10000 then
    if is_surrogate c then None
    else Some [0xE0 + c / 4096; 0x80 + (c / 64) mod 64; 0x80 + c mod 64]
  else if c <? 0x110000 then
    Some [0xF0 + c / 262144; 0x80 + (c / 4096) mod 64;
          0x80 + (c / 64) mod 64; 0x80 + c mod 64]
  else None.

Fixpoint encode (text : list Z) : option (list Z) :=
  match text with
  | [] => Some []
  | c :: rest =>
      match encode_char c with
      | None => None
      | Some bs => match encode rest with
                   | None => None
                   | Some bs' => Some (bs ++ bs')
                   end
      end
  end.

Definition cont (b : Z) : bool := (0x80 <=? b) && (b <? 0xC0).

Fixpoint decode (bs : list Z) : option (list Z) :=
  match bs with
  | [] => Some []
  | b0 :: t0 =>
      if (0 <=? b0) && (b0 <? 0x80) then
        option_map (cons b0) (decode t0)
      else if (0xC0 <=? b0) && (b0 <? 0xE0) then
        match t0 with
        | b1 :: t1 =>
            let c := (b0 - 0xC0) * 64 + (b1 - 0x80) in
            if cont b1 && (0x80 <=? c) then option_map (cons c) (decode t1)
            else None
        | _ => None
        end
      else if (0xE0 <=? b0) && (b0 <? 0xF0) then
        match t0 with
        | b1 :: b2 :: t2 =>
            let c := (b0 - 0xE0) * 4096 + (b1 - 0x80) * 64 + (b2 - 0x80) in
            if cont b1 && cont b2 && (0x800 <=? c) && negb (is_surrogate c)
            then option_map (cons c) (decode t2)
            else None
        | _ => None
        end
      else if (0xF0 <=? b0) && (b0 <? 0xF8) then
        match t0 with
        | b1 :: b2 :: b3 :: t3 =>
            let c := (b0 - 0xF0) * 262144 + (b1 - 0x80) * 4096
                     + (b2 - 0x80) * 64 + (b3 - 0x80) in
            if cont b1 && cont b2 && cont b3
               && (0x10000 <=? c) && (c <? 0x110000)
            then option_map (cons c) (decode t3)
            else None
        | _ => None
        end
      else None
  end.

End Utf8.

(** ** Python text *)

(** A [str] is a sequence of Unicode code points; [len] counts them. *)
Definition str := list Z.

Definition len (s : str) : nat := length s.

(** Every element of a Python [str] is a code point below 0x110000. *)
Definition is_str (s : str) : Prop := Forall (fun c => (0 <= c < 0x110000)%Z) s.

(** The code points of an ASCII literal. *)
Definition text (s : string) : str :=
  map (fun ch => Z.of_nat (Ascii.nat_of_ascii ch)) (String.list_ascii_of_string s).

Definition LF : Z := 10.
Definition CR : Z := 13.

(** [str(n)] for a non-negative integer: its decimal digits. *)
Definition py_str_int (n : nat) : string :=
  NilEmpty.string_of_uint (Nat.to_uint n).

(** ** The platform

    Two things the script leaves to the host: [os.linesep], which a text
    file opened with the default [newline=None] substitutes for every
    ['\n'] it writes, and the resolution of a path string to a location. *)
Inductive os := Posix | Windows.

Definition linesep (o : os) : str :=
  match o with
  | Posix => [LF]
  | Windows => [CR; LF]
  end.

(** [text.replace('\n', sep)], the translation done by a text file on
    write. *)
Definition translate_newlines (sep : str) (s : str) : str :=
  flat_map (fun c => if (c =? LF)%Z then sep else [c]) s.

(** Universal-newline translation done by a text file on read
    ([newline=None]): ["\r\n"] and a lone ["\r"] both become ["\n"]. *)
Fixpoint universal_newlines (s : str) : str :=
  match s with
  | [] => []
  | c :: rest =>
      if (c =? CR)%Z then
        match rest with
        | c' :: rest' =>
            if (c' =? LF)%Z then LF :: universal_newlines rest'
            else LF :: universal_newlines rest
        | [] => [LF]
        end
      else c :: universal_newlines rest
  end.

(** A location: the components of a path from the root. *)
Definition path := list string.

Definition parent (q : path) : path := removelast q.

(** Splitting a path string at separator characters; empty components
    (repeated or trailing separators) are dropped. *)
Fixpoint split_path (seps : list Ascii.ascii) (cur : string) (s : string)
  : path :=
  match s with
  | EmptyString => if decide (cur = EmptyString) then [] else [cur]
  | String ch rest =>
      if bool_decide (ch ∈ seps) then
        (if decide (cur = EmptyString) then [] else [cur])
          ++ split_path seps EmptyString rest
      else split_path seps (cur +:+ String ch EmptyString) rest
  end.

(** Resolution of absolute paths on the two platforms: POSIX separates at
    ["/"], Windows at ["\"] and ["/"], the drive being the first
    component. *)
Definition posix_resolve (s : string) : path :=
  split_path ["/"%char] EmptyString s.

Definition windows_resolve (s : string) : path :=
  split_path ["\"%char; "/"%char] EmptyString s.

(** ** The world: file system, open files, standard output *)

Inductive node :=
  | File (data : list Z)
  | Dir.

(** An open file object: where it writes and the encoded bytes it has
    buffered and not yet handed to the file system. *)
Record handle := Handle { h_path : path; h_pending : list Z }.

Record world := World {
  nodes : gmap path node;        (* what exists where *)
  readonly : gset path;          (* locations that refuse writing *)
  free : nat;                    (* free space of the disk, in bytes *)
  handles : gmap nat handle;     (* open file objects, by descriptor *)
  stdout : list string           (* what has been printed, in order *)
}.

(** The file system is a tree: the root is a directory and everything
    else sits in a directory. *)
Definition wf_world (s : world) : Prop :=
  nodes s !! ([] : path) = Some Dir /\
  forall (q : path) (n : node),
    nodes s !! q = Some n -> q <> [] -> nodes s !! parent q = Some Dir.

(** ** Exceptions and the monad of the script *)

Inductive errno := ENOENT | ENOTDIR | EISDIR | EACCES | ENOSPC.

Inductive exn :=
  | OSError (e : errno)
  | UnicodeEncodeError
  | ValueError.

Inductive result (A : Type) :=
  | Ok (a : A)
  | Raise (e : exn).
Arguments Ok {A} a.
Arguments Raise {A} e.

Definition M (A : Type) : Type := world -> result A * world.

Global Instance M_ret : MRet M := fun A (a : A) s => (Ok a, s).

Global Instance M_bind : MBind M := fun A B (k : A -> M B) (m : M A) s =>
  match m s with
  | (Ok a, s') => k a s'
  | (Raise e, s') => (Raise e, s')
  end.

Definition raise {A} (e : exn) : M A := fun s => (Raise e, s).

(** [try: m finally: c]: [c] runs whatever [m] does; an exception of [c]
    replaces the one of [m]. *)
Definition finally {A} (m : M A) (c : M unit) : M A :=
  fun s =>
    match m s with
    | (r, s1) =>
        match c s1 with
        | (Ok _, s2) => (r, s2)
        | (Raise e, s2) => (Raise e, s2)
        end
    end.

Definition set_file (q : path) (data : list Z) (fr : nat)
    (hs : gmap nat handle) (s : world) : world :=
  {| nodes := <[q := File data]> (nodes s);
     readonly := readonly s;
     free := fr;
     handles := hs;
     stdout := stdout s |}.

Section Script.

Variable platform : os.
Variable resolve : string -> path.

(** *** The built-ins the script calls *)

(** [open(file, 'w', encoding='utf-8')].  An existing regular file is
    truncated (its bytes go back to the free space), a missing one is
    created in an existing, writable directory; a new descriptor is
    returned.  Every refusal leaves the world as it was.  Windows reports
    a directory as a permission failure and a non-directory parent as a
    missing path. *)
Definition py_open (file : string) : M nat :=
  fun s =>
    let q := resolve file in
    let fd := fresh (dom (handles s)) in
    match nodes s !! q with
    | Some Dir =>
        (Raise (OSError match platform with
                        | Posix => EISDIR
                        | Windows => EACCES
                        end), s)
    | Some (File old) =>
        if decide (q ∈ readonly s) then (Raise (OSError EACCES), s)
        else (Ok fd, set_file q [] (free s + length old)
                       (<[fd := Handle q []]> (handles s)) s)
    | None =>
        match nodes s !! parent q with
        | Some Dir =>
            if decide (parent q ∈ readonly s) then (Raise (OSError EACCES), s)
            else (Ok fd, set_file q [] (free s)
                           (<[fd := Handle q []]> (handles s)) s)
        | Some (File _) =>
            (Raise (OSError match platform with
                            | Posix => ENOTDIR
                            | Windows => ENOENT
                            end), s)
        | None => (Raise (OSError ENOENT), s)
        end
    end.

(** [f.write(text)]: the text has its ['\n'] translated to [os.linesep],
    is encoded as a whole, and the bytes are buffered in the file object.
    Nothing is buffered when the encoder refuses.  Returns the number of
    characters. *)
Definition f_write (f : nat) (s_text : str) : M nat :=
  fun s =>
    match handles s !! f with
    | None => (Raise ValueError, s)
    | Some h =>
        match Utf8.encode (translate_newlines (linesep platform) s_text) with
        | None => (Raise UnicodeEncodeError, s)
        | Some bs =>
            (Ok (len s_text),
             {| nodes := nodes s; readonly := readonly s; free := free s;
                handles := <[f := Handle (h_path h) (h_pending h ++ bs)]>
                             (handles s);
                stdout := stdout s |})
        end
    end.

(** [f.close()]: the buffered bytes are appended to the file, as many as
    the disk takes; when it is full the rest is lost and [OSError] is
    raised.  The descriptor is released in every case.  Closing a closed
    file does nothing.  A full disk stands for every failure of the
    device after [open]; quotas, size limits and media errors are not
    told apart, and space is counted in bytes, not in blocks. *)
Definition f_close (f : nat) : M unit :=
  fun s =>
    match handles s !! f with
    | None => (Ok tt, s)
    | Some h =>
        let hs := delete f (handles s) in
        match nodes s !! h_path h with
        | Some (File data) =>
            if decide (length (h_pending h) <= free s) then
              (Ok tt, set_file (h_path h) (data ++ h_pending h)
                        (free s - length (h_pending h)) hs s)
            else
              (Raise (OSError ENOSPC),
               set_file (h_path h) (data ++ take (free s) (h_pending h))
                 0 hs s)
        | _ =>
            (Ok tt, {| nodes := nodes s; readonly := readonly s;
                       free := free s; handles := hs; stdout := stdout s |})
        end
    end.

(** [with open(file, 'w', encoding='utf-8') as f: body]: the file object's
    [__exit__] closes it on the way out and suppresses nothing. *)
Definition with_open {A} (file : string) (body : nat -> M A) : M A :=
  f ← py_open file; finally (body f) (f_close f).

(** [print(a, b)]: the arguments separated by a space, then a newline. *)
Definition py_print (args : list string) : M unit :=
  fun s =>
    (Ok tt, {| nodes := nodes s; readonly := readonly s; free := free s;
               handles := handles s;
               stdout := stdout s ++ [String.concat " " args +:+ String (Ascii.ascii_of_nat 10) EmptyString] |}).

(** *** The script, for any payload and destination *)

Definition write_instructions (payload : str) (file : string) : M unit :=
  with_open file (fun f => f_write f payload) ;;
  py_print ["done"; py_str_int (len payload)].

End Script.

(** *** The literals of the script *)

(** The value of the [u'''...'''] literal.  In the source [\uXXXX] is a
    code point, a doubled backslash is one backslash, a backslash at the
    end of a line removes the line break, and a backslash before any
    other character (a form feed and a comma occur) stays with that
    character. *)
Definition content : str :=
  text "# Copilot Instructions " ++ [0x2014%Z] ++ text " forgekit-storybook-mcp" ++ [LF] ++
  [LF] ++
  text "## Project Overview" ++ [LF] ++
  [LF] ++
  text "**MCP (Model Context Protocol) server** that auto-generates Storybook stories, tests, and MDX docs for React component libraries. Published to npm as \" ++ [0xC%Z] ++ text "orgekit-storybook-mcp\, runs as a CLI via stdio transport. It is **not** a React app" ++ [0x2014%Z] ++ text "it analyzes and generates files in consumer projects. Requires **Node " ++ [0x2265%Z] ++ text " 20** and targets **Storybook 10+**." ++ [LF] ++
  [LF] ++
  text "## Architecture" ++ [LF] ++
  [LF] ++
  text "\src/" ++ [LF] ++
  text "  cli.ts              " ++ [0x2192%Z] ++ text " Entry: loads .env/.env.local, resolves config, runs preflight + init sync, starts MCP server" ++ [LF] ++
  text "  index.ts            " ++ [0x2192%Z] ++ text " MCP server: registers 15 tools via @modelcontextprotocol/sdk request handlers" ++ [LF] ++
  text "  tools.ts            " ++ [0x2192%Z] ++ text " 15 tool functions: listComponents, analyzeComponent, generateStory, updateStory," ++ [LF] ++
  text "                         validateStory, getStoryTemplate, listTemplates, getComponentCoverage, suggestStories," ++ [LF] ++
  text "                         syncAll, syncComponent, generateTest, generateDocs, checkHealth, generateCodeConnect" ++ [LF] ++
  text "  types.ts            " ++ [0x2192%Z] ++ text " All shared TypeScript interfaces + DEFAULT_CONFIG" ++ [LF] ++
  text "  utils/" ++ [LF] ++
  text "    scanner.ts          " ++ [0x2192%Z] ++ text " Component discovery (fast-glob) + prop/dependency extraction via regex" ++ [LF] ++
  text "    generator.ts        " ++ [0x2192%Z] ++ text " Story file generation (framework-aware: Chakra/shadcn/RN/etc.)" ++ [LF] ++
  text "    initializer.ts      " ++ [0x2192%Z] ++ text " Startup sync engine: MD5 hash diff via .storybook-mcp-cache.json; file watcher" ++ [LF] ++
  text "    license.ts          " ++ [0x2192%Z] ++ text " Polar license validation, 24h file cache, feature gating" ++ [LF] ++
  text "    setup.ts            " ++ [0x2192%Z] ++ text " Storybook bootstrapper: .storybook/ config, Nx monorepo detection" ++ [LF] ++
  text "    templates.ts        " ++ [0x2192%Z] ++ text " 8 built-in story templates (basic, with-controls, with-msw, form, etc.)" ++ [LF] ++
  text "    validator.ts        " ++ [0x2192%Z] ++ text " Story validator: 8 rule categories, 0-100 score" ++ [LF] ++
  text "    test-generator.ts   " ++ [0x2192%Z] ++ text " Generates Playwright or Vitest test files" ++ [LF] ++
  text "    docs-generator.ts   " ++ [0x2192%Z] ++ text " Generates MDX documentation files" ++ [LF] ++
  text "    code-connect-generator.ts " ++ [0x2192%Z] ++ text " Generates @figma/code-connect .figma.tsx files" ++ [LF] ++
  text "    story-merger.ts     " ++ [0x2192%Z] ++ text " Pure functions: merges regenerated templates with user-added story blocks" ++ [LF] ++
  text "    story-history.ts    " ++ [0x2192%Z] ++ text " Writes .forgekit/story-history.json (max 10 versions per story)" ++ [LF] ++
  text "    preflight.ts        " ++ [0x2192%Z] ++ text " Storybook 10 compatibility checks before server starts" ++ [LF] ++
  text "    errors.ts           " ++ [0x2192%Z] ++ text " StorybookMCPError class + ErrorCode enum (typed error codes)" ++ [LF] ++
  text "    constants.ts        " ++ [0x2192%Z] ++ text " Single source of truth for all hardcoded values" ++ [LF] ++
  text "\".

(** The raw-string path literal, backslashes doubled as written. *)
Definition destination : string :=
  "d:\\documents-from-c\\GitHub\\storybook-mcp-v2\\.github\\copilot-instructions.md".

(** The script as it stands. *)
Definition main (platform : os) (resolve : string -> path) : M unit :=
  write_instructions platform resolve content destination.

(** ** Derived notions used by the statements *)

Definition NL : string := String (Ascii.ascii_of_nat 10) EmptyString.


Section Outcome.

Variable platform : os.

(** Whether [open] accepts a location, and the free space there is once an
    existing file has been truncated. *)
Definition opened (q : path) (s : world) : option nat :=
  match nodes s !! q with
  | Some Dir => None
  | Some (File old) =>
      if decide (q ∈ readonly s) then None else Some (free s + length old)
  | None =>
      match nodes s !! parent q with
      | Some Dir => if decide (parent q ∈ readonly s) then None else Some (free s)
      | _ => None
      end
  end.

(** The [with] block, once [open] has accepted the destination. *)
Definition block_result (q : path) (avail : nat) (payload : str) (s : world)
  : result nat * world :=
  match Utf8.encode (translate_newlines (linesep platform) payload) with
  | None => (Raise UnicodeEncodeError, set_file q [] avail (handles s) s)
  | Some bs =>
      if decide (length bs <= avail) then
        (Ok (len payload), set_file q bs (avail - length bs) (handles s) s)
      else
        (Raise (OSError ENOSPC), set_file q (take avail bs) 0 (handles s) s)
  end.

(** The bytes found at the destination after the [with] block: as much
    of the encoded payload as the disk took, nothing when the encoder
    refused. *)
Definition final_data (avail : nat) (payload : str) : list Z :=
  match Utf8.encode (translate_newlines (linesep platform) payload) with
  | None => []
  | Some bs => take avail bs
  end.

(** The line the script prints for a payload. *)
Definition report (payload : str) : string :=
  String.concat " " ["done"; py_str_int (len payload)]
    +:+ String (Ascii.ascii_of_nat 10) EmptyString.

Definition printed (line : string) (s : world) : world :=
  {| nodes := nodes s; readonly := readonly s; free := free s;
     handles := handles s; stdout := stdout s ++ [line] |}.

(** The whole script, by cases. *)
Definition run_result (q : path) (avail : nat) (payload : str) (s : world)
  : result unit * world :=
  match block_result q avail payload s with
  | (Ok _, s') => (Ok tt, printed (report payload) s')
  | (Raise e, s') => (Raise e, s')
  end.

End Outcome.

(** The size in bytes of the regular file at a location, 0 when there is
    none. *)
Definition size_at (q : path) (s : world) : nat :=
  match nodes s !! q with
  | Some (File data) => length data
  | _ => 0
  end.

Global Instance node_eq_dec : EqDecision node.
Proof. solve_decision. Defined.

(** The tree condition, as a check that runs. *)
Definition wf_check (s : world) : bool :=
  bool_decide (nodes s !! ([] : path) = Some Dir) &&
  forallb (fun qn : path * node =>
             bool_decide (qn.1 = []) ||
             bool_decide (nodes s !! parent qn.1 = Some Dir))
          (map_to_list (nodes s)).


(** ** Example worlds *)

(** A POSIX machine with an empty [/tmp] and 4096 free bytes. *)
Definition posix_world : world :=
  {| nodes := list_to_map [([], Dir); (["tmp"], Dir)];
     readonly := ∅; free := 4096; handles := ∅; stdout := [] |}.

(** A Windows machine whose [C:\tmp\out.txt] holds the bytes of ["OLD"]. *)
Definition windows_world : world :=
  {| nodes := list_to_map
       [([], Dir); (["C:"], Dir); (["C:"; "tmp"], Dir);
        (["C:"; "tmp"; "out.txt"], File [79; 76; 68]%Z)];
     readonly := ∅; free := 4096; handles := ∅; stdout := [] |}.

(** The machine of the script: the directory of the destination exists. *)
Definition author_world : world :=
  {| nodes := list_to_map
       [([], Dir); (["d:"], Dir); (["d:"; "documents-from-c"], Dir);
        (["d:"; "documents-from-c"; "GitHub"], Dir);
        (["d:"; "documents-from-c"; "GitHub"; "storybook-mcp-v2"], Dir);
        (["d:"; "documents-from-c"; "GitHub"; "storybook-mcp-v2"; ".github"],
         Dir)];
     readonly := ∅; free := 4096; handles := ∅; stdout := [] |}.

(** A machine with 4 free bytes and a read-only [/etc]. *)
Definition small_world : world :=
  {| nodes := list_to_map [([], Dir); (["tmp"], Dir); (["etc"], Dir)];
     readonly := {[ ["etc"] ]}; free := 4; handles := ∅; stdout := [] |}.

(** ** The specification's sentences that the code does not satisfy as
    written *)

(** The round trip as the specification states it: decoding the bytes of
    the file gives back the payload, character for character. *)
Definition exact_round_trip : Prop :=
  forall platform resolve payload file s,
    nodes s !! parent (resolve file) = Some Dir ->
    parent (resolve file) ∉ readonly s ->
    (write_instructions platform resolve payload file s).1 = Ok tt ->
    exists bs,
      nodes (write_instructions platform resolve payload file s).2
        !! resolve file = Some (File bs) /\
      Utf8.decode bs = Some payload.

(** Overwriting as the specification states it: whatever the file held,
    it holds exactly the payload afterwards. *)
Definition exact_overwrite : Prop :=
  forall platform resolve payload file s old,
    nodes s !! resolve file = Some (File old) ->
    Utf8.decode old <> Some payload ->
    (write_instructions platform resolve payload file s).1 = Ok tt ->
    exists bs,
      nodes (write_instructions platform resolve payload file s).2
        !! resolve file = Some (File bs) /\
      Utf8.decode bs = Some payload.

(** Determinism as the specification states it: any two successful runs
    of the script leave the same bytes at the destination. *)
Definition runs_agree_everywhere : Prop :=
  forall platform1 resolve1 s1 platform2 resolve2 s2,
    (main platform1 resolve1 s1).1 = Ok tt ->
    (main platform2 resolve2 s2).1 = Ok tt ->
    nodes (main platform1 resolve1 s1).2 !! resolve1 destination
    = nodes (main platform2 resolve2 s2).2 !! resolve2 destination.

(** The encoding error as the specification states it: raised exactly
    when the payload has a character the encoding cannot represent. *)
Definition encoding_error_iff_unrepresentable : Prop :=
  forall platform resolve payload file s,
    is_str payload ->
    ((write_instructions platform resolve payload file s).1
     = Raise UnicodeEncodeError <->
     Exists (fun c => Utf8.is_surrogate c = true) payload).


(** * Properties *)

(** ** The codec *)
Module Utf8Facts.
Import Utf8.
Local Open Scope Z_scope.

Ltac cmp_step :=
  match goal with
  | |- context [?a <? ?b] => destruct (Z.ltb_spec a b); try (exfalso; lia)
  | |- context [?a <=? ?b] => destruct (Z.leb_spec a b); try (exfalso; lia)
  end.
Ltac split_cmp := repeat (cmp_step; cbn [andb negb]).
Ltac dlia := Z.div_mod_to_equations; lia.

Lemma decode_1 b t :
  0 <= b < 0x80 -> decode (b :: t) = option_map (cons b) (decode t).
Proof. intros Hb. cbn [decode]. split_cmp. reflexivity. Qed.

Lemma decode_2 b0 b1 t :
  0xC0 <= b0 < 0xE0 -> 0x80 <= b1 < 0xC0 ->
  0x80 <= (b0 - 0xC0) * 64 + (b1 - 0x80) ->
  decode (b0 :: b1 :: t) =
  option_map (cons ((b0 - 0xC0) * 64 + (b1 - 0x80))) (decode t).
Proof.
  intros H0 H1 Hc. cbn [decode]. unfold cont. cbv zeta. split_cmp. reflexivity.
Qed.

Lemma decode_3 b0 b1 b2 t :
  0xE0 <= b0 < 0xF0 -> 0x80 <= b1 < 0xC0 -> 0x80 <= b2 < 0xC0 ->
  let c := (b0 - 0xE0) * 4096 + (b1 - 0x80) * 64 + (b2 - 0x80) in
  0x800 <= c -> is_surrogate c = false ->
  decode (b0 :: b1 :: b2 :: t) = option_map (cons c) (decode t).
Proof.
  intros H0 H1 H2 c Hc Hs. cbn [decode]. fold c. rewrite Hs. unfold cont.
  split_cmp. reflexivity.
Qed.

Lemma decode_4 b0 b1 b2 b3 t :
  0xF0 <= b0 < 0xF8 -> 0x80 <= b1 < 0xC0 -> 0x80 <= b2 < 0xC0 ->
  0x80 <= b3 < 0xC0 ->
  let c := (b0 - 0xF0) * 262144 + (b1 - 0x80) * 4096
           + (b2 - 0x80) * 64 + (b3 - 0x80) in
  0x10000 <= c < 0x110000 ->
  decode (b0 :: b1 :: b2 :: b3 :: t) = option_map (cons c) (decode t).
Proof.
  intros H0 H1 H2 H3 c Hc. cbn [decode]. fold c. unfold cont.
  split_cmp. reflexivity.
Qed.

Lemma decode_encode_char c bs rest :
  encode_char c = Some bs ->
  decode (bs ++ rest) = option_map (cons c) (decode rest).
Proof.
  unfold encode_char.
  destruct (Z.ltb_spec c 0); [discriminate|].
  destruct (Z.ltb_spec c 0x80).
  { intros [= <-]. apply decode_1. lia. }
  destruct (Z.ltb_spec c 0x800).
  { intros [= <-]. cbn [app]. rewrite decode_2; [do 2 f_equal| | |]; dlia. }
  destruct (Z.ltb_spec c 0x10000).
  { destruct (is_surrogate c) eqn:Hs; [discriminate|].
    intros [= <-]. cbn [app].
    assert (Hc : (0xE0 + c / 4096 - 0xE0) * 4096
                 + (0x80 + (c / 64) mod 64 - 0x80) * 64
                 + (0x80 + c mod 64 - 0x80) = c) by dlia.
    rewrite decode_3; cbv zeta; rewrite ?Hc; auto; try dlia. }
  destruct (Z.ltb_spec c 0x110000); [|discriminate].
  intros [= <-]. cbn [app].
  assert (Hc : (0xF0 + c / 262144 - 0xF0) * 262144
               + (0x80 + (c / 4096) mod 64 - 0x80) * 4096
               + (0x80 + (c / 64) mod 64 - 0x80) * 64
               + (0x80 + c mod 64 - 0x80) = c) by dlia.
  rewrite decode_4; cbv zeta; rewrite ?Hc; auto; try dlia.
Qed.

(** Decoding undoes encoding. *)
Lemma decode_encode s bs : encode s = Some bs -> decode bs = Some s.
Proof.
  revert bs. induction s as [|c s IH]; intros bs; cbn [encode].
  - intros [= <-]. reflexivity.
  - destruct (encode_char c) as [b|] eqn:Hc; [|discriminate].
    destruct (encode s) as [bs'|]; [|discriminate].
    intros [= <-]. rewrite (decode_encode_char _ _ _ Hc), (IH bs' eq_refl).
    reflexivity.
Qed.

(** The encoder refuses a code point exactly when it is a surrogate. *)
Lemma encode_char_None c :
  0 <= c < 0x110000 -> (encode_char c = None <-> is_surrogate c = true).
Proof.
  intros Hc. unfold encode_char, is_surrogate.
  destruct (Z.ltb_spec c 0); [lia|].
  destruct (Z.ltb_spec c 0x80).
  { split; [discriminate|]. split_cmp; discriminate. }
  destruct (Z.ltb_spec c 0x800).
  { split; [discriminate|]. split_cmp; discriminate. }
  destruct (Z.ltb_spec c 0x10000).
  { destruct ((55296 <=? c) && (c <=? 57343)); split; congruence. }
  destruct (Z.ltb_spec c 0x110000); [|lia].
  split; [discriminate|]. split_cmp; discriminate.
Qed.

Lemma encode_None s :
  encode s = None <-> Exists (fun c => encode_char c = None) s.
Proof.
  induction s as [|c s IH]; cbn [encode].
  - split; [discriminate|]. intros H. inversion H.
  - destruct (encode_char c) as [b|] eqn:Hc.
    + destruct (encode s) as [bs'|].
      * split; [discriminate|]. intros H. inversion H as [? ? H1|? ? H1]; subst.
        -- congruence.
        -- apply IH in H1. discriminate.
      * split; [|reflexivity]. intros _. apply Exists_cons_tl, IH. reflexivity.
    + split; [|reflexivity]. intros _. apply Exists_cons_hd. exact Hc.
Qed.

Lemma encode_app s1 s2 b1 b2 :
  encode s1 = Some b1 -> encode s2 = Some b2 ->
  encode (s1 ++ s2) = Some (b1 ++ b2).
Proof.
  revert b1. induction s1 as [|c s1 IH]; intros b1; cbn [encode app].
  - intros [= <-] H2. exact H2.
  - destruct (encode_char c) as [b|]; [|discriminate].
    destruct (encode s1) as [bs'|]; [|discriminate].
    intros [= <-] H2. rewrite (IH bs' eq_refl H2), app_assoc. reflexivity.
Qed.

(** Every code point takes at least one byte. *)
Lemma encode_char_length c bs :
  encode_char c = Some bs -> (1 <= length bs <= 4)%nat.
Proof.
  unfold encode_char.
  repeat match goal with
         | |- context [if ?b then _ else _] => destruct b
         end; intros [= <-]; cbn; lia.
Qed.

End Utf8Facts.

(** ** Newline translation *)

Lemma translate_newlines_posix s : translate_newlines (linesep Posix) s = s.
Proof.
  induction s as [|c s IH]; [reflexivity|].
  cbn [translate_newlines flat_map linesep].
  fold (translate_newlines [LF] s). change (linesep Posix) with [LF] in IH.
  rewrite IH. destruct (Z.eqb_spec c LF); subst; reflexivity.
Qed.

Lemma translate_newlines_no_LF sep s : LF ∉ s -> translate_newlines sep s = s.
Proof.
  induction s as [|c s IH]; [reflexivity|]. intros Hn.
  cbn [translate_newlines flat_map]. fold (translate_newlines sep s).
  rewrite IH by (intros ?; apply Hn; by right).
  destruct (Z.eqb_spec c LF); [|reflexivity].
  subst. exfalso. apply Hn. by left.
Qed.

(** Reading back with universal newlines undoes the translation when the
    text has no carriage return of its own. *)
Lemma universal_translate o s :
  CR ∉ s -> universal_newlines (translate_newlines (linesep o) s) = s.
Proof.
  induction s as [|c s IH]; [reflexivity|]. intros Hn.
  assert (Hc : c <> CR) by (intros ->; apply Hn; by left).
  assert (Hs : CR ∉ s) by (intros ?; apply Hn; by right).
  specialize (IH Hs).
  cbn [translate_newlines flat_map]. fold (translate_newlines (linesep o) s).
  destruct (Z.eqb_spec c LF) as [->|Hl].
  - destruct o; cbn [linesep app universal_newlines].
    + change (LF =? CR)%Z with false. cbv iota.
      change [LF] with (linesep Posix). rewrite IH. reflexivity.
    + change (CR =? CR)%Z with true. change (LF =? LF)%Z with true. cbv iota.
      change [CR; LF] with (linesep Windows). rewrite IH. reflexivity.
  - cbn [app universal_newlines].
    destruct (Z.eqb_spec c CR); [contradiction|]. rewrite IH. reflexivity.
Qed.

(** The translation neither adds nor removes what the encoder refuses. *)
Lemma translate_newlines_encodable o s :
  Utf8.encode (translate_newlines (linesep o) s) = None <->
  Utf8.encode s = None.
Proof.
  rewrite !Utf8Facts.encode_None.
  induction s as [|c s IH]; [reflexivity|].
  cbn [translate_newlines flat_map]. fold (translate_newlines (linesep o) s).
  rewrite Exists_app, Exists_cons, IH.
  destruct (Z.eqb_spec c LF) as [->|Hl].
  - split; [intros [H|H]|intros [H|H]]; auto.
    + exfalso. destruct o; cbn in H;
        repeat (apply Exists_cons in H as [H|H]; [discriminate|]);
        inversion H.
    + discriminate.
  - rewrite Exists_cons, Exists_nil. tauto.
Qed.

(** ** What a run does *)

Section Runs.

Variable platform : os.
Variable resolve : string -> path.

Lemma fresh_handle (s : world) : handles s !! fresh (dom (handles s)) = None.
Proof. apply not_elem_of_dom, is_fresh. Qed.

Lemma py_open_refused file s :
  opened (resolve file) s = None ->
  exists er, er <> ENOSPC /\
    py_open platform resolve file s = (Raise (OSError er), s).
Proof.
  unfold opened, py_open.
  destruct (nodes s !! resolve file) as [[old|]|].
  - destruct (decide _); [|discriminate]. intros _. by exists EACCES.
  - intros _. destruct platform; eexists; (split; [|reflexivity]); discriminate.
  - destruct (nodes s !! parent (resolve file)) as [[old|]|].
    + intros _. destruct platform; eexists; (split; [|reflexivity]); discriminate.
    + destruct (decide _); [|discriminate]. intros _. by exists EACCES.
    + intros _. by exists ENOENT.
Qed.

Lemma py_open_accepted file s avail :
  opened (resolve file) s = Some avail ->
  py_open platform resolve file s =
  (Ok (fresh (dom (handles s))),
   set_file (resolve file) [] avail
     (<[fresh (dom (handles s)) := Handle (resolve file) []]> (handles s)) s).
Proof.
  unfold opened, py_open.
  destruct (nodes s !! resolve file) as [[old|]|].
  - destruct (decide _); [discriminate|]. by intros [= <-].
  - discriminate.
  - destruct (nodes s !! parent (resolve file)) as [[old|]|]; try discriminate.
    destruct (decide _); [discriminate|]. by intros [= <-].
Qed.

Lemma with_open_accepted file payload s avail :
  opened (resolve file) s = Some avail ->
  with_open platform resolve file (fun f => f_write platform f payload) s =
  block_result platform (resolve file) avail payload s.
Proof.
  intros Ho. unfold with_open, mbind, M_bind.
  rewrite (py_open_accepted _ _ _ Ho).
  set (fd := fresh (dom (handles s))).
  assert (Hfd : handles s !! fd = None) by apply fresh_handle.
  unfold finally, f_write, f_close, block_result, set_file.
  cbn [handles nodes free readonly stdout].
  rewrite lookup_insert_eq. cbn [h_path h_pending app].
  destruct (Utf8.encode _) as [bs|]; cbn [handles nodes free readonly stdout];
    rewrite !lookup_insert_eq; cbn [h_path h_pending app length];
    rewrite ?insert_insert_eq, (delete_insert_id _ _ _ Hfd).
  - destruct (decide _); reflexivity.
  - destruct (decide _); [|lia]. rewrite Nat.sub_0_r. reflexivity.
Qed.

Lemma with_open_refused file payload s :
  opened (resolve file) s = None ->
  exists er, er <> ENOSPC /\
    with_open platform resolve file (fun f => f_write platform f payload) s
    = (Raise (OSError er), s).
Proof.
  intros Ho. destruct (py_open_refused _ _ Ho) as (er & Her & Hr).
  exists er. split; [exact Her|].
  unfold with_open, mbind, M_bind. rewrite Hr. reflexivity.
Qed.

Lemma write_instructions_accepted payload file s avail :
  opened (resolve file) s = Some avail ->
  write_instructions platform resolve payload file s =
  run_result platform (resolve file) avail payload s.
Proof.
  intros Ho. unfold write_instructions, mbind, M_bind at 1.
  rewrite (with_open_accepted _ _ _ _ Ho). unfold run_result.
  destruct (block_result _ _ _ _) as [[n|e] s']; reflexivity.
Qed.

Lemma write_instructions_refused payload file s :
  opened (resolve file) s = None ->
  exists er, er <> ENOSPC /\
    write_instructions platform resolve payload file s
    = (Raise (OSError er), s).
Proof.
  intros Ho. destruct (with_open_refused _ payload _ Ho) as (er & Her & Hr).
  exists er. split; [exact Her|].
  unfold write_instructions, mbind, M_bind at 1. rewrite Hr. reflexivity.
Qed.

End Runs.

(** ** The state a run leaves *)

Section RunFacts.

Variable platform : os.
Variable resolve : string -> path.

Lemma final_data_length avail payload :
  length (final_data platform avail payload) <= avail.
Proof.
  unfold final_data. destruct (Utf8.encode _); cbn; [|lia].
  rewrite length_take. lia.
Qed.

Lemma block_result_state q avail payload s :
  (block_result platform q avail payload s).2 =
  set_file q (final_data platform avail payload)
    (avail - length (final_data platform avail payload)) (handles s) s.
Proof.
  unfold block_result, final_data.
  destruct (Utf8.encode _) as [bs|]; cbn [snd length].
  - destruct (decide _) as [Hle|Hgt]; cbn [snd].
    + rewrite take_ge by exact Hle. reflexivity.
    + rewrite length_take_le by lia. rewrite Nat.sub_diag. reflexivity.
  - rewrite Nat.sub_0_r. reflexivity.
Qed.

Lemma run_result_state q avail payload s :
  let r := run_result platform q avail payload s in
  let s0 := set_file q (final_data platform avail payload)
              (avail - length (final_data platform avail payload)) (handles s) s in
  (r.1 = Ok tt /\ r.2 = printed (report payload) s0) \/
  (exists e, r.1 = Raise e /\ r.2 = s0).
Proof.
  cbv zeta. unfold run_result.
  pose proof (block_result_state q avail payload s) as Hs.
  destruct (block_result _ _ _ _) as [[n|e] s']; cbn [fst snd] in *; subst s'.
  - left. split; reflexivity.
  - right. exists e. split; reflexivity.
Qed.

Lemma opened_set_file q d fr hs s :
  opened q (set_file q d fr hs s) =
  if decide (q ∈ readonly s) then None else Some (fr + length d).
Proof.
  unfold opened, set_file. cbn [nodes readonly free].
  rewrite lookup_insert_eq. reflexivity.
Qed.

Lemma opened_printed q line s : opened q (printed line s) = opened q s.
Proof. reflexivity. Qed.

(** A run that gets past [open] succeeds or fails as a whole; this is the
    full case analysis the theorems below read off. *)
Lemma write_instructions_cases payload file s :
  let r := write_instructions platform resolve payload file s in
  let q := resolve file in
  (exists er, er <> ENOSPC /\ opened q s = None /\ r = (Raise (OSError er), s))
  \/
  (exists avail bs,
      opened q s = Some avail /\
      Utf8.encode (translate_newlines (linesep platform) payload) = Some bs /\
      length bs <= avail /\
      r = (Ok tt, printed (report payload)
                    (set_file q bs (avail - length bs) (handles s) s)))
  \/
  (exists avail,
      opened q s = Some avail /\
      Utf8.encode (translate_newlines (linesep platform) payload) = None /\
      r = (Raise UnicodeEncodeError, set_file q [] avail (handles s) s))
  \/
  (exists avail bs,
      opened q s = Some avail /\
      Utf8.encode (translate_newlines (linesep platform) payload) = Some bs /\
      avail < length bs /\
      r = (Raise (OSError ENOSPC),
           set_file q (take avail bs) 0 (handles s) s)).
Proof.
  cbv zeta. destruct (opened (resolve file) s) as [avail|] eqn:Ho.
  - right. rewrite (write_instructions_accepted _ _ _ _ _ _ Ho).
    unfold run_result, block_result.
    destruct (Utf8.encode _) as [bs|] eqn:He.
    + destruct (decide _) as [Hle|Hgt].
      * left. exists avail, bs. repeat split; auto.
      * right; right. exists avail, bs. repeat split; auto. lia.
    + right; left. exists avail. repeat split; auto.
  - left. destruct (write_instructions_refused platform resolve payload _ _ Ho)
      as (er & Her & Hr).
    exists er. repeat split; auto.
Qed.

End RunFacts.

(** ** The specification's properties *)

Lemma py_str_int_inj n m : py_str_int n = py_str_int m -> n = m.
Proof.
  unfold py_str_int. intros H.
  assert (Hu : Nat.to_uint n = Nat.to_uint m).
  { apply (f_equal NilEmpty.uint_of_string) in H.
    rewrite !NilEmpty.usu in H. congruence. }
  apply (f_equal Nat.of_uint) in Hu.
  rewrite !Unsigned.of_to in Hu. exact Hu.
Qed.

Ltac run_cases platform resolve payload file s :=
  let r := fresh "r" in
  let Hr := fresh "Hr" in
  pose proof (write_instructions_cases platform resolve payload file s) as Hr;
  cbv zeta in Hr;
  destruct Hr as
    [(er & Her & Ho & Hr)
    |[(avail & bs & Ho & He & Hl & Hr)
     |[(avail & Ho & He & Hr)
      |(avail & bs & Ho & He & Hl & Hr)]]];
  rewrite Hr in *; cbn [fst snd] in *.

(** C1, as the code has it.  After a successful write to a destination
    whose parent directory exists and is writable, decoding the bytes of
    the file as UTF-8 gives the payload with every line feed replaced by
    the platform's line separator.  That is the payload itself where the
    separator is a line feed (POSIX) and for any payload without a line
    feed; and reading back the way a text file is read, with universal
    newlines, gives the payload whenever it has no carriage return. *)
Theorem write_round_trip platform resolve payload file s :
  nodes s !! parent (resolve file) = Some Dir ->
  parent (resolve file) ∉ readonly s ->
  (write_instructions platform resolve payload file s).1 = Ok tt ->
  exists bs,
    nodes (write_instructions platform resolve payload file s).2
      !! resolve file = Some (File bs) /\
    Utf8.decode bs = Some (translate_newlines (linesep platform) payload) /\
    (platform = Posix \/ LF ∉ payload -> Utf8.decode bs = Some payload) /\
    (CR ∉ payload ->
     option_map universal_newlines (Utf8.decode bs) = Some payload).
Proof.
  intros _ _ Hok. run_cases platform resolve payload file s;
    try discriminate.
  exists bs. unfold printed, set_file. cbn [nodes].
  rewrite lookup_insert_eq.
  pose proof (Utf8Facts.decode_encode _ _ He) as Hd.
  repeat split; auto.
  - intros [->|Hn]; rewrite Hd.
    + by rewrite translate_newlines_posix.
    + by rewrite translate_newlines_no_LF.
  - intros Hn. rewrite Hd. cbn. by rewrite universal_translate.
Qed.

(** On Windows a payload with a line feed does not come back from the
    bytes: the file holds a carriage return before it. *)
Lemma exact_round_trip_fails : ~ exact_round_trip.
Proof.
  intros H.
  destruct (H Windows windows_resolve (text "a" ++ [LF] ++ text "b")
              "C:\tmp\out.txt" windows_world) as (bs & Hb & Hd).
  - reflexivity.
  - apply not_elem_of_empty.
  - reflexivity.
  - vm_compute in Hb. injection Hb as <-. vm_compute in Hd. discriminate.
Qed.

Lemma write_round_trip_witness :
  exists bs,
    nodes (write_instructions Windows windows_resolve
             (text "a" ++ [LF] ++ text "b") "C:\tmp\out.txt" windows_world).2
      !! windows_resolve "C:\tmp\out.txt" = Some (File bs) /\
    Utf8.decode bs
    = Some (translate_newlines (linesep Windows)
              (text "a" ++ [LF] ++ text "b")) /\
    (Windows = Posix \/ LF ∉ text "a" ++ [LF] ++ text "b" ->
     Utf8.decode bs = Some (text "a" ++ [LF] ++ text "b")) /\
    (CR ∉ text "a" ++ [LF] ++ text "b" ->
     option_map universal_newlines (Utf8.decode bs)
     = Some (text "a" ++ [LF] ++ text "b")).
Proof.
  apply (write_round_trip Windows windows_resolve
           (text "a" ++ [LF] ++ text "b") "C:\tmp\out.txt" windows_world).
  - reflexivity.
  - apply not_elem_of_empty.
  - reflexivity.
Defined.

(** C2.  When the write succeeds, the script prints one line, ["done"],
    a space and the decimal number of characters of the payload; the
    number identifies the character count, whatever the byte length of
    the encoded payload is, and is 0 for the empty payload. *)
Theorem report_counts_characters platform resolve payload file s :
  (write_instructions platform resolve payload file s).1 = Ok tt ->
  stdout (write_instructions platform resolve payload file s).2
  = stdout s ++ ["done " +:+ py_str_int (length payload) +:+ NL] /\
  (forall n, py_str_int n = py_str_int (length payload) ->
             n = length payload) /\
  (payload = [] ->
   stdout (write_instructions platform resolve payload file s).2
   = stdout s ++ ["done 0" +:+ NL]).
Proof.
  intros Hok. run_cases platform resolve payload file s; try discriminate.
  repeat split.
  - intros n. apply py_str_int_inj.
  - intros ->. reflexivity.
Qed.

Lemma report_counts_characters_witness :
  stdout (write_instructions Posix posix_resolve
            (text "caf" ++ [0xE9; 0x20; 0x2615]%Z) "/tmp/unicode.txt"
            posix_world).2
  = stdout posix_world ++ ["done " +:+ py_str_int 6 +:+ NL] /\
  (forall n, py_str_int n = py_str_int 6 -> n = 6) /\
  (text "caf" ++ [0xE9; 0x20; 0x2615]%Z = [] ->
   stdout (write_instructions Posix posix_resolve
             (text "caf" ++ [0xE9; 0x20; 0x2615]%Z) "/tmp/unicode.txt"
             posix_world).2
   = stdout posix_world ++ ["done 0" +:+ NL]).
Proof.
  apply (report_counts_characters Posix posix_resolve
           (text "caf" ++ [0xE9; 0x20; 0x2615]%Z) "/tmp/unicode.txt"
           posix_world).
  reflexivity.
Defined.

(** C3, as the code has it.  After a successful write over a file with
    other content, the file holds exactly the UTF-8 bytes of the payload
    with its line feeds replaced by the platform's line separator, and
    nothing of the old content: the bytes are the same whatever the file
    held.  Decoding them gives the payload itself on POSIX and for any
    payload without a line feed. *)
Theorem write_overwrites platform resolve payload file s old :
  nodes s !! resolve file = Some (File old) ->
  Utf8.decode old <> Some payload ->
  (write_instructions platform resolve payload file s).1 = Ok tt ->
  exists bs,
    nodes (write_instructions platform resolve payload file s).2
      !! resolve file = Some (File bs) /\
    Utf8.encode (translate_newlines (linesep platform) payload) = Some bs /\
    Utf8.decode bs = Some (translate_newlines (linesep platform) payload) /\
    (platform = Posix \/ LF ∉ payload -> Utf8.decode bs = Some payload).
Proof.
  intros _ _ Hok. run_cases platform resolve payload file s;
    try discriminate.
  exists bs. unfold printed, set_file. cbn [nodes].
  rewrite lookup_insert_eq.
  pose proof (Utf8Facts.decode_encode _ _ He) as Hd.
  repeat split; auto.
  intros [->|Hn]; rewrite Hd.
  - by rewrite translate_newlines_posix.
  - by rewrite translate_newlines_no_LF.
Qed.

Lemma exact_overwrite_fails : ~ exact_overwrite.
Proof.
  intros H.
  destruct (H Windows windows_resolve (text "NEW" ++ [LF])
              "C:\tmp\out.txt" windows_world [79; 76; 68]%Z)
    as (bs & Hb & Hd).
  - reflexivity.
  - vm_compute. discriminate.
  - reflexivity.
  - vm_compute in Hb. injection Hb as <-. vm_compute in Hd. discriminate.
Qed.

Lemma write_overwrites_witness :
  exists bs,
    nodes (write_instructions Windows windows_resolve (text "NEW")
             "C:\tmp\out.txt" windows_world).2
      !! windows_resolve "C:\tmp\out.txt" = Some (File bs) /\
    Utf8.encode (translate_newlines (linesep Windows) (text "NEW"))
    = Some bs /\
    Utf8.decode bs = Some (translate_newlines (linesep Windows) (text "NEW")) /\
    (Windows = Posix \/ LF ∉ text "NEW" -> Utf8.decode bs = Some (text "NEW")).
Proof.
  apply (write_overwrites Windows windows_resolve (text "NEW")
           "C:\tmp\out.txt" windows_world [79; 76; 68]%Z).
  - reflexivity.
  - vm_compute. discriminate.
  - reflexivity.
Defined.

(** C4.  In a well-formed file system, a write to a destination whose
    parent is not an existing directory raises [OSError], changes
    nothing, and leaves no file at the destination. *)
Theorem missing_parent_fails platform resolve payload file s :
  wf_world s ->
  nodes s !! parent (resolve file) <> Some Dir ->
  exists er,
    write_instructions platform resolve payload file s
    = (Raise (OSError er), s) /\
    nodes (write_instructions platform resolve payload file s).2
      !! resolve file = None.
Proof.
  intros [Hroot Hwf] Hp.
  assert (Hq : nodes s !! resolve file = None).
  { destruct (nodes s !! resolve file) as [n|] eqn:Hn; [|reflexivity].
    destruct (decide (resolve file = [])) as [Hnil|Hnil].
    - rewrite Hnil in Hp. cbn in Hp. contradiction.
    - elim Hp. by apply (Hwf _ n). }
  assert (Ho : opened (resolve file) s = None).
  { unfold opened. rewrite Hq.
    destruct (nodes s !! parent (resolve file)) as [[d|]|]; congruence. }
  destruct (write_instructions_refused platform resolve payload _ _ Ho)
    as (er & _ & Hr).
  exists er. rewrite Hr. split; [reflexivity|exact Hq].
Qed.

Lemma wf_check_sound s : wf_check s = true -> wf_world s.
Proof.
  unfold wf_check, wf_world. intros H.
  apply andb_prop in H as [Hr Hall]. split.
  - by apply bool_decide_eq_true_1 in Hr.
  - intros q n Hq Hne. rewrite forallb_forall in Hall.
    specialize (Hall (q, n)). cbn [fst] in Hall.
    assert (Hin : In (q, n) (map_to_list (nodes s))).
    { apply list_elem_of_In, elem_of_map_to_list. exact Hq. }
    apply Hall, orb_prop in Hin as [Hx|Hx];
      apply bool_decide_eq_true_1 in Hx; [contradiction|exact Hx].
Qed.

Lemma missing_parent_fails_witness :
  exists er,
    write_instructions Posix posix_resolve (text "x") "/no/such/dir/out.txt"
      posix_world
    = (Raise (OSError er), posix_world) /\
    nodes (write_instructions Posix posix_resolve (text "x")
             "/no/such/dir/out.txt" posix_world).2
      !! posix_resolve "/no/such/dir/out.txt" = None.
Proof.
  apply (missing_parent_fails Posix posix_resolve (text "x")
           "/no/such/dir/out.txt" posix_world).
  - apply wf_check_sound. vm_compute. reflexivity.
  - vm_compute. discriminate.
Defined.

(** C5.  A run ends in one of two ways.  Either it succeeds, the file at
    the destination holds all the bytes of the encoded payload and the
    report is printed; or it raises, and nothing is printed.  A report
    never comes with a file that holds part of the payload. *)
Theorem all_or_nothing platform resolve payload file s :
  (exists bs,
      (write_instructions platform resolve payload file s).1 = Ok tt /\
      Utf8.encode (translate_newlines (linesep platform) payload) = Some bs /\
      nodes (write_instructions platform resolve payload file s).2
        !! resolve file = Some (File bs) /\
      stdout (write_instructions platform resolve payload file s).2
      = stdout s ++ [report payload])
  \/
  (exists e,
      (write_instructions platform resolve payload file s).1 = Raise e /\
      stdout (write_instructions platform resolve payload file s).2
      = stdout s).
Proof.
  run_cases platform resolve payload file s.
  - right. by exists (OSError er).
  - left. exists bs. unfold printed, set_file. cbn [nodes stdout].
    rewrite lookup_insert_eq. auto.
  - right. by exists UnicodeEncodeError.
  - right. by exists (OSError ENOSPC).
Qed.

(** The file system a run leaves once [open] has accepted the
    destination. *)
Lemma accepted_run_fs platform resolve payload file s avail :
  opened (resolve file) s = Some avail ->
  let s' := (write_instructions platform resolve payload file s).2 in
  nodes s' = <[resolve file := File (final_data platform avail payload)]>
               (nodes s) /\
  free s' = avail - length (final_data platform avail payload) /\
  readonly s' = readonly s.
Proof.
  intros Ho. cbv zeta.
  rewrite (write_instructions_accepted _ _ _ _ _ _ Ho).
  pose proof (run_result_state platform (resolve file) avail payload s) as H.
  cbv zeta in H.
  destruct H as [[_ H]|(e & _ & H)]; rewrite H; auto.
Qed.

Lemma refused_run_state platform resolve payload file s :
  opened (resolve file) s = None ->
  (write_instructions platform resolve payload file s).2 = s.
Proof.
  intros Ho.
  destruct (write_instructions_refused platform resolve payload _ _ Ho)
    as (er & _ & ->). reflexivity.
Qed.

(** C6.  Writing twice in succession leaves the file system as writing
    once does: the same nodes, so the same content at the destination,
    and the same free space. *)
Theorem write_idempotent platform resolve payload file s :
  let once := (write_instructions platform resolve payload file s).2 in
  let twice := (write_instructions platform resolve payload file once).2 in
  nodes twice !! resolve file = nodes once !! resolve file /\
  nodes twice = nodes once /\
  free twice = free once.
Proof.
  cbv zeta.
  set (once := (write_instructions platform resolve payload file s).2).
  cut (nodes (write_instructions platform resolve payload file once).2
         = nodes once /\
       free (write_instructions platform resolve payload file once).2
         = free once).
  { intros [-> ->]. auto. }
  destruct (opened (resolve file) s) as [avail|] eqn:Ho.
  - destruct (accepted_run_fs platform resolve payload file s avail Ho)
      as (Hn & Hf & Hro). fold once in Hn, Hf, Hro.
    pose proof (final_data_length platform avail payload) as Hlen.
    destruct (opened (resolve file) once) as [avail'|] eqn:Ho'.
    + assert (avail' = avail) as ->.
      { revert Ho'. unfold opened. rewrite Hn, Hf, Hro, lookup_insert_eq.
        destruct (decide _); [discriminate|]. intros [= <-]. lia. }
      destruct (accepted_run_fs platform resolve payload file once avail Ho')
        as (Hn' & Hf' & _).
      rewrite Hn', Hf', Hn, Hf, insert_insert_eq. auto.
    + rewrite (refused_run_state _ _ _ _ _ Ho'). auto.
  - assert (once = s) as -> by apply (refused_run_state _ _ _ _ _ Ho).
    rewrite (refused_run_state _ _ _ _ _ Ho). auto.
Qed.

Lemma py_open_Ok_opened platform resolve file s :
  (exists fd s', py_open platform resolve file s = (Ok fd, s')) <->
  (exists avail, opened (resolve file) s = Some avail).
Proof.
  split.
  - intros (fd & s' & H).
    destruct (opened (resolve file) s) as [avail|] eqn:Ho; [by exists avail|].
    destruct (py_open_refused platform resolve _ _ Ho) as (er & _ & Hr).
    congruence.
  - intros (avail & Ho). rewrite (py_open_accepted platform resolve _ _ _ Ho).
    by eexists _, _.
Qed.

Lemma encode_refuses_surrogates platform payload :
  is_str payload ->
  Utf8.encode (translate_newlines (linesep platform) payload) = None <->
  Exists (fun c => Utf8.is_surrogate c = true) payload.
Proof.
  intros Hs. rewrite translate_newlines_encodable, Utf8Facts.encode_None.
  unfold is_str in Hs. rewrite !Exists_exists. rewrite Forall_forall in Hs.
  split; intros (c & Hin & Hc); exists c; (split; [exact Hin|]);
    apply (Utf8Facts.encode_char_None c (Hs c Hin)); exact Hc.
Qed.

Lemma content_encodable platform :
  Utf8.encode (translate_newlines (linesep platform) content) <> None.
Proof.
  intros H. apply translate_newlines_encodable in H. vm_compute in H.
  discriminate.
Qed.

(** C7, as the code has it.  The write raises [UnicodeEncodeError]
    exactly when [open] accepts the destination and the payload has a
    code point UTF-8 cannot represent, a surrogate; the error leaves the
    script before anything is printed; and the payload of the script has
    no such code point, so the script itself never raises it.  A
    destination that [open] refuses makes the write raise [OSError]
    whatever the payload is. *)
Theorem encoding_error_iff platform resolve payload file s :
  is_str payload ->
  ((write_instructions platform resolve payload file s).1
   = Raise UnicodeEncodeError <->
   (exists fd s', py_open platform resolve file s = (Ok fd, s')) /\
   Exists (fun c => Utf8.is_surrogate c = true) payload) /\
  ((write_instructions platform resolve payload file s).1
   = Raise UnicodeEncodeError ->
   stdout (write_instructions platform resolve payload file s).2
   = stdout s) /\
  (forall s0, (main platform resolve s0).1 <> Raise UnicodeEncodeError) /\
  ((forall fd s', py_open platform resolve file s <> (Ok fd, s')) ->
   exists er,
     write_instructions platform resolve payload file s
     = (Raise (OSError er), s)).
Proof.
  intros Hs. pose proof (encode_refuses_surrogates platform payload Hs) as Hx.
  assert (Hno : (forall fd s',
                   py_open platform resolve file s <> (Ok fd, s')) ->
                exists er,
                  write_instructions platform resolve payload file s
                  = (Raise (OSError er), s)).
  { intros Hn. destruct (opened (resolve file) s) as [a|] eqn:Ha.
    - exfalso. destruct (proj2 (py_open_Ok_opened platform resolve file s))
        as (fd & s' & Hx'); [by exists a|]. by apply (Hn fd s').
    - destruct (write_instructions_refused platform resolve payload _ _ Ha)
        as (er & _ & Hr). by exists er. }
  rewrite py_open_Ok_opened.
  split; [|split; [|split; [|exact Hno]]].
  - run_cases platform resolve payload file s.
    + split; [discriminate|]. intros [(a & Ha) _]. congruence.
    + split; [discriminate|]. intros [_ Hsur]. apply Hx in Hsur. congruence.
    + split; [|reflexivity]. intros _. split; [by exists avail|].
      by apply Hx.
    + split; [discriminate|]. intros [_ Hsur]. apply Hx in Hsur. congruence.
  - run_cases platform resolve payload file s; try discriminate. auto.
  - intros s0. unfold main.
    pose proof (content_encodable platform) as Hc.
    run_cases platform resolve content destination s0;
      try discriminate. contradiction.
Qed.

(** An unencodable payload sent to a destination with no parent
    directory raises [OSError], not the encoding error. *)
Lemma encoding_error_iff_unrepresentable_fails :
  ~ encoding_error_iff_unrepresentable.
Proof.
  intros H.
  destruct (H Posix posix_resolve [0xD800%Z] "/no/such/dir/out.txt"
              posix_world) as [_ Hback].
  - repeat constructor; lia.
  - assert (Hr : (write_instructions Posix posix_resolve [0xD800%Z]
                    "/no/such/dir/out.txt" posix_world).1
                 = Raise UnicodeEncodeError).
    { apply Hback. apply Exists_cons_hd. reflexivity. }
    vm_compute in Hr. discriminate.
Qed.

Lemma encoding_error_iff_witness :
  ((write_instructions Posix posix_resolve [0xD800%Z] "/tmp/out.txt"
      posix_world).1 = Raise UnicodeEncodeError <->
   (exists fd s', py_open Posix posix_resolve "/tmp/out.txt" posix_world
                  = (Ok fd, s')) /\
   Exists (fun c => Utf8.is_surrogate c = true) [0xD800%Z]) /\
  ((write_instructions Posix posix_resolve [0xD800%Z] "/tmp/out.txt"
      posix_world).1 = Raise UnicodeEncodeError ->
   stdout (write_instructions Posix posix_resolve [0xD800%Z] "/tmp/out.txt"
             posix_world).2 = stdout posix_world) /\
  (forall s0, (main Posix posix_resolve s0).1 <> Raise UnicodeEncodeError) /\
  ((forall fd s', py_open Posix posix_resolve "/tmp/out.txt" posix_world
                  <> (Ok fd, s')) ->
   exists er,
     write_instructions Posix posix_resolve [0xD800%Z] "/tmp/out.txt"
       posix_world
     = (Raise (OSError er), posix_world)).
Proof.
  apply (encoding_error_iff Posix posix_resolve [0xD800%Z] "/tmp/out.txt"
           posix_world).
  unfold is_str. repeat constructor; lia.
Defined.

(** C8.  A run touches the file system at the destination only: every
    other location keeps its node, permissions and open files are as
    before.  When [open] accepts the destination a regular file is there
    afterwards; when it refuses, the world is untouched. *)
Theorem write_frame platform resolve payload file s :
  delete (resolve file)
    (nodes (write_instructions platform resolve payload file s).2)
  = delete (resolve file) (nodes s) /\
  (forall q, q <> resolve file ->
     nodes (write_instructions platform resolve payload file s).2 !! q
     = nodes s !! q) /\
  readonly (write_instructions platform resolve payload file s).2
  = readonly s /\
  handles (write_instructions platform resolve payload file s).2
  = handles s /\
  ((exists fd s', py_open platform resolve file s = (Ok fd, s')) ->
   exists bs,
     nodes (write_instructions platform resolve payload file s).2
       !! resolve file = Some (File bs)) /\
  ((forall fd s', py_open platform resolve file s <> (Ok fd, s')) ->
   (write_instructions platform resolve payload file s).2 = s).
Proof.
  rewrite py_open_Ok_opened.
  assert (Hno : (forall fd s',
                   py_open platform resolve file s <> (Ok fd, s')) ->
                opened (resolve file) s = None).
  { intros Hn. destruct (opened (resolve file) s) as [a|] eqn:Ho; auto.
    exfalso. destruct (proj2 (py_open_Ok_opened platform resolve file s))
      as (fd & s' & Hx); [by exists a|]. by apply (Hn fd s'). }
  run_cases platform resolve payload file s;
    unfold printed, set_file; cbn [nodes readonly handles];
    rewrite ?delete_insert_eq;
    split_and!; auto;
    try (intros q Hq; rewrite ?lookup_insert_ne by congruence; reflexivity);
    try (intros (a & Ha); try congruence; rewrite ?lookup_insert_eq;
         by eauto);
    try (intros Hn; apply Hno in Hn; congruence).
Qed.

Lemma write_frame_witness :
  delete (windows_resolve "C:\tmp\new.txt")
    (nodes (write_instructions Windows windows_resolve (text "NEW")
              "C:\tmp\new.txt" windows_world).2)
  = delete (windows_resolve "C:\tmp\new.txt") (nodes windows_world) /\
  (forall q, q <> windows_resolve "C:\tmp\new.txt" ->
     nodes (write_instructions Windows windows_resolve (text "NEW")
              "C:\tmp\new.txt" windows_world).2 !! q
     = nodes windows_world !! q) /\
  readonly (write_instructions Windows windows_resolve (text "NEW")
              "C:\tmp\new.txt" windows_world).2
  = readonly windows_world /\
  handles (write_instructions Windows windows_resolve (text "NEW")
             "C:\tmp\new.txt" windows_world).2
  = handles windows_world /\
  ((exists fd s', py_open Windows windows_resolve "C:\tmp\new.txt"
                    windows_world = (Ok fd, s')) ->
   exists bs,
     nodes (write_instructions Windows windows_resolve (text "NEW")
              "C:\tmp\new.txt" windows_world).2
       !! windows_resolve "C:\tmp\new.txt" = Some (File bs)) /\
  ((forall fd s', py_open Windows windows_resolve "C:\tmp\new.txt"
                    windows_world <> (Ok fd, s')) ->
   (write_instructions Windows windows_resolve (text "NEW")
      "C:\tmp\new.txt" windows_world).2 = windows_world).
Proof.
  apply (write_frame Windows windows_resolve (text "NEW") "C:\tmp\new.txt"
           windows_world).
Defined.



(** C10, as the code has it.  The script reads nothing: on one platform
    (one line separator, one resolution of paths) two successful runs,
    from any two worlds, leave the same bytes at the destination, the
    UTF-8 bytes of the literal with its line feeds translated, and print
    the same line, ["done 2345"], whatever the destination held before.
    The line does not depend on the platform; the bytes do. *)
Theorem main_deterministic platform resolve s1 s2 :
  (main platform resolve s1).1 = Ok tt ->
  (main platform resolve s2).1 = Ok tt ->
  nodes (main platform resolve s1).2 !! resolve destination
  = nodes (main platform resolve s2).2 !! resolve destination /\
  (exists bs,
     Utf8.encode (translate_newlines (linesep platform) content) = Some bs /\
     nodes (main platform resolve s1).2 !! resolve destination
     = Some (File bs)) /\
  stdout (main platform resolve s1).2 = stdout s1 ++ [report content] /\
  stdout (main platform resolve s2).2 = stdout s2 ++ [report content] /\
  report content = "done 2345" +:+ NL.
Proof.
  unfold main. intros Hok1 Hok2.
  run_cases platform resolve content destination s1; try discriminate.
  rename bs into bs1, He into He1, avail into avail1.
  clear Ho Hl.
  run_cases platform resolve content destination s2; try discriminate.
  assert (bs = bs1) as -> by congruence.
  unfold printed, set_file. cbn [nodes stdout].
  rewrite !lookup_insert_eq. split_and!; eauto.
Qed.

(** A successful run on POSIX and one on Windows leave files of
    different sizes: the line feeds of the literal are written as they
    are on the first and with a carriage return before each on the
    second. *)
Lemma runs_agree_everywhere_fails : ~ runs_agree_everywhere.
Proof.
  intros H.
  specialize (H Posix posix_resolve posix_world
                Windows windows_resolve author_world).
  assert (Hsize :
    size_at (posix_resolve destination)
      (main Posix posix_resolve posix_world).2
    = size_at (windows_resolve destination)
        (main Windows windows_resolve author_world).2).
  { unfold size_at. rewrite H; [reflexivity| |]; vm_compute; reflexivity. }
  apply Nat.eqb_eq in Hsize. vm_compute in Hsize. discriminate.
Qed.

Lemma main_deterministic_witness :
  nodes (main Windows windows_resolve author_world).2
    !! windows_resolve destination
  = nodes (main Windows windows_resolve
             (main Windows windows_resolve author_world).2).2
      !! windows_resolve destination /\
  (exists bs,
     Utf8.encode (translate_newlines (linesep Windows) content) = Some bs /\
     nodes (main Windows windows_resolve author_world).2
       !! windows_resolve destination
     = Some (File bs)) /\
  stdout (main Windows windows_resolve author_world).2
  = stdout author_world ++ [report content] /\
  stdout (main Windows windows_resolve
            (main Windows windows_resolve author_world).2).2
  = stdout (main Windows windows_resolve author_world).2
    ++ [report content] /\
  report content = "done 2345" +:+ NL.
Proof.
  apply (main_deterministic Windows windows_resolve author_world
           (main Windows windows_resolve author_world).2).
  - vm_compute. reflexivity.
  - vm_compute. reflexivity.
Defined.

(** ** Further properties of the script *)

Lemma opened_Some_inv q s avail :
  opened q s = Some avail ->
  ((q ∉ readonly s) /\
   exists old, nodes s !! q = Some (File old) /\ avail = free s + length old)
  \/
  (nodes s !! q = None /\ nodes s !! parent q = Some Dir /\
   (parent q ∉ readonly s) /\ avail = free s).
Proof.
  unfold opened. destruct (nodes s !! q) as [[old|]|].
  - destruct (decide _); [discriminate|]. intros [= <-]. left. eauto.
  - discriminate.
  - destruct (nodes s !! parent q) as [[old|]|]; try discriminate.
    destruct (decide _); [discriminate|]. intros [= <-]. right. auto.
Qed.

Lemma parent_length (q : path) :
  q <> [] -> S (length (parent q)) = length q.
Proof.
  unfold parent. induction q as [|c q IH]; [contradiction|]. intros _.
  destruct q as [|c' q]; [reflexivity|].
  change (removelast (c :: c' :: q)) with (c :: removelast (c' :: q)).
  cbn [length]. rewrite IH by discriminate. reflexivity.
Qed.

Lemma parent_neq (q : path) : q <> [] -> parent q <> q.
Proof.
  intros Hq Heq. pose proof (parent_length q Hq) as Hl.
  rewrite Heq in Hl. lia.
Qed.

(** The file system stays a tree: a run started in a well-formed world
    ends in a well-formed world, on every path. *)
Theorem write_keeps_tree platform resolve payload file s :
  wf_world s ->
  wf_world (write_instructions platform resolve payload file s).2.
Proof.
  intros Hwf.
  destruct (opened (resolve file) s) as [avail|] eqn:Ho.
  - destruct (accepted_run_fs platform resolve payload file s avail Ho)
      as (Hn & _ & _).
    destruct Hwf as [Hroot Hwf]. unfold wf_world. rewrite Hn.
    set (q := resolve file) in *.
    assert (Hnd : nodes s !! q <> Some Dir).
    { destruct (opened_Some_inv _ _ _ Ho)
        as [(_ & old & Hq & _)|(Hq & _)]; congruence. }
    assert (Hq0 : q <> []) by congruence.
    assert (Hpar : nodes s !! parent q = Some Dir).
    { destruct (opened_Some_inv _ _ _ Ho)
        as [(_ & old & Hq & _)|(_ & Hp & _)]; [|exact Hp].
      by apply (Hwf q (File old)). }
    split.
    + rewrite lookup_insert_ne by congruence. exact Hroot.
    + intros q' n Hq' Hne.
      assert (Hp' : nodes s !! parent q' = Some Dir).
      { destruct (decide (q' = q)) as [->|Hd]; [exact Hpar|].
        rewrite lookup_insert_ne in Hq' by congruence.
        by apply (Hwf q' n). }
      rewrite lookup_insert_ne by congruence. exact Hp'.
  - rewrite (refused_run_state _ _ _ _ _ Ho). exact Hwf.
Qed.

Lemma write_keeps_tree_witness :
  wf_world (write_instructions Windows windows_resolve (text "NEW")
              "C:\tmp\new.txt" windows_world).2.
Proof.
  apply (write_keeps_tree Windows windows_resolve (text "NEW")
           "C:\tmp\new.txt" windows_world).
  apply wf_check_sound. vm_compute. reflexivity.
Defined.

(** A payload the encoder refuses costs the old content: when [open]
    accepts the destination and the payload has a surrogate, the run
    raises [UnicodeEncodeError], the file at the destination is left
    empty, and nothing is printed. *)
Theorem encoding_failure_truncates platform resolve payload file s fd s1 :
  is_str payload ->
  py_open platform resolve file s = (Ok fd, s1) ->
  Exists (fun c => Utf8.is_surrogate c = true) payload ->
  (write_instructions platform resolve payload file s).1
  = Raise UnicodeEncodeError /\
  nodes (write_instructions platform resolve payload file s).2
    !! resolve file = Some (File []) /\
  stdout (write_instructions platform resolve payload file s).2 = stdout s.
Proof.
  intros Hs Hopen Hsur.
  apply (encode_refuses_surrogates platform payload Hs) in Hsur.
  assert (Hacc : exists avail, opened (resolve file) s = Some avail).
  { apply (py_open_Ok_opened platform). eauto. }
  destruct Hacc as (a & Ha).
  run_cases platform resolve payload file s; try congruence.
  unfold set_file. cbn [nodes stdout]. rewrite lookup_insert_eq. auto.
Qed.

Lemma encoding_failure_truncates_witness :
  (write_instructions Windows windows_resolve [0xDC00%Z] "C:\tmp\out.txt"
     windows_world).1 = Raise UnicodeEncodeError /\
  nodes (write_instructions Windows windows_resolve [0xDC00%Z]
           "C:\tmp\out.txt" windows_world).2
    !! windows_resolve "C:\tmp\out.txt" = Some (File []) /\
  stdout (write_instructions Windows windows_resolve [0xDC00%Z]
            "C:\tmp\out.txt" windows_world).2 = stdout windows_world.
Proof.
  eapply (encoding_failure_truncates Windows windows_resolve [0xDC00%Z]
            "C:\tmp\out.txt" windows_world).
  - unfold is_str. repeat constructor; lia.
  - vm_compute. reflexivity.
  - apply Exists_cons_hd. reflexivity.
Defined.

(** A full disk leaves a prefix: when the encoded payload is longer than
    the space free once the destination is open, the run raises
    [OSError] with [ENOSPC], the file holds exactly the bytes that
    fitted, no space is left, and nothing is printed.  Nothing is rolled
    back. *)
Theorem disk_full_leaves_prefix platform resolve payload file s fd s1 enc :
  py_open platform resolve file s = (Ok fd, s1) ->
  Utf8.encode (translate_newlines (linesep platform) payload) = Some enc ->
  free s1 < length enc ->
  (write_instructions platform resolve payload file s).1
  = Raise (OSError ENOSPC) /\
  nodes (write_instructions platform resolve payload file s).2
    !! resolve file = Some (File (take (free s1) enc)) /\
  free (write_instructions platform resolve payload file s).2 = 0 /\
  stdout (write_instructions platform resolve payload file s).2 = stdout s.
Proof.
  intros Hopen Henc Hfull.
  assert (Hacc : exists a, opened (resolve file) s = Some a).
  { apply (py_open_Ok_opened platform). eauto. }
  destruct Hacc as (a & Ha).
  rewrite (py_open_accepted platform resolve _ _ _ Ha) in Hopen.
  injection Hopen as <- <-. unfold set_file in Hfull. cbn [free] in *.
  run_cases platform resolve payload file s; try congruence.
  - assert (bs = enc) as -> by congruence.
    assert (avail = a) as -> by congruence. lia.
  - assert (bs = enc) as -> by congruence.
    assert (avail = a) as -> by congruence.
    unfold set_file. cbn [nodes stdout free]. rewrite lookup_insert_eq. auto.
Qed.

Lemma disk_full_leaves_prefix_witness :
  (write_instructions Posix posix_resolve (text "hello world")
     "/tmp/out.txt" small_world).1 = Raise (OSError ENOSPC) /\
  nodes (write_instructions Posix posix_resolve (text "hello world")
           "/tmp/out.txt" small_world).2
    !! posix_resolve "/tmp/out.txt"
  = Some (File (take 4 [104; 101; 108; 108; 111; 32; 119; 111; 114; 108;
                        100]%Z)) /\
  free (write_instructions Posix posix_resolve (text "hello world")
          "/tmp/out.txt" small_world).2 = 0 /\
  stdout (write_instructions Posix posix_resolve (text "hello world")
            "/tmp/out.txt" small_world).2 = stdout small_world.
Proof.
  eapply (disk_full_leaves_prefix Posix posix_resolve (text "hello world")
            "/tmp/out.txt" small_world _
            (py_open Posix posix_resolve "/tmp/out.txt" small_world).2).
  - vm_compute. reflexivity.
  - vm_compute. reflexivity.
  - vm_compute. lia.
Defined.

(** The reported count and the size of the file: after a success the
    file has at least as many bytes as the payload has characters, and at
    most four times as many. *)
Theorem count_le_bytes platform resolve payload file s :
  (write_instructions platform resolve payload file s).1 = Ok tt ->
  len payload
  <= size_at (resolve file) (write_instructions platform resolve payload file s).2
  <= 4 * len payload.
Proof.
  intros Hok. run_cases platform resolve payload file s; try discriminate.
  unfold size_at, printed, set_file. cbn [nodes].
  rewrite lookup_insert_eq. clear -He.
  revert bs He. unfold len.
  induction payload as [|c p IH]; intros bs; cbn [translate_newlines flat_map].
  - intros [= <-]. cbn. lia.
  - fold (translate_newlines (linesep platform) p). intros He.
    destruct (Utf8.encode (translate_newlines (linesep platform) p))
      as [bp|] eqn:Hp.
    2:{ exfalso. apply (Utf8Facts.encode_None) in Hp.
        assert (Hx : Utf8.encode
                  ((if (c =? LF)%Z then linesep platform else [c])
                   ++ translate_newlines (linesep platform) p) = None).
        { apply Utf8Facts.encode_None, Exists_app. by right. }
        congruence. }
    specialize (IH bp eq_refl).
    destruct (Z.eqb_spec c LF) as [->|Hc].
    + assert (Hsep : exists b, Utf8.encode (linesep platform) = Some b /\
                               1 <= length b <= 2).
      { destruct platform; eexists; (split; [reflexivity|]); cbn; lia. }
      destruct Hsep as (b & Hb & Hlb).
      rewrite (Utf8Facts.encode_app _ _ _ _ Hb Hp) in He.
      injection He as <-. rewrite length_app. cbn [length]. lia.
    + cbn [app Utf8.encode] in He. rewrite Hp in He.
      destruct (Utf8.encode_char c) as [b|] eqn:Hb; [|discriminate].
      injection He as <-. rewrite length_app. cbn [length].
      pose proof (Utf8Facts.encode_char_length _ _ Hb). lia.
Qed.

Lemma count_le_bytes_witness :
  len (text "caf" ++ [0xE9; 0x20; 0x2615]%Z)
  <= size_at (posix_resolve "/tmp/unicode.txt")
       (write_instructions Posix posix_resolve
          (text "caf" ++ [0xE9; 0x20; 0x2615]%Z) "/tmp/unicode.txt"
          posix_world).2
  <= 4 * len (text "caf" ++ [0xE9; 0x20; 0x2615]%Z).
Proof.
  apply (count_le_bytes Posix posix_resolve
           (text "caf" ++ [0xE9; 0x20; 0x2615]%Z) "/tmp/unicode.txt"
           posix_world).
  vm_compute. reflexivity.
Defined.

(** A success can be repeated: after a successful run to a destination
    that is not marked read-only, running again succeeds and prints the
    same line once more. *)
Theorem second_run_succeeds platform resolve payload file s :
  (write_instructions platform resolve payload file s).1 = Ok tt ->
  resolve file ∉ readonly s ->
  let once := (write_instructions platform resolve payload file s).2 in
  (write_instructions platform resolve payload file once).1 = Ok tt /\
  stdout (write_instructions platform resolve payload file once).2
  = stdout s ++ [report payload; report payload].
Proof.
  intros Hok Hro. cbv zeta.
  run_cases platform resolve payload file s; try discriminate.
  set (s1 := printed (report payload)
               (set_file (resolve file) bs (avail - length bs)
                  (handles s) s)).
  assert (Ho1 : opened (resolve file) s1 = Some avail).
  { unfold s1. rewrite opened_printed, opened_set_file.
    destruct (decide _); [contradiction|]. f_equal. lia. }
  rewrite (write_instructions_accepted _ _ _ _ _ _ Ho1).
  unfold run_result, block_result. rewrite He.
  destruct (decide _); [|lia]. cbn [fst snd].
  split; [reflexivity|]. unfold s1, printed, set_file. cbn [stdout].
  rewrite <- app_assoc. reflexivity.
Qed.

Lemma second_run_succeeds_witness :
  let once := (write_instructions Windows windows_resolve (text "NEW")
                 "C:\tmp\out.txt" windows_world).2 in
  (write_instructions Windows windows_resolve (text "NEW") "C:\tmp\out.txt"
     once).1 = Ok tt /\
  stdout (write_instructions Windows windows_resolve (text "NEW")
            "C:\tmp\out.txt" once).2
  = stdout windows_world ++ [report (text "NEW"); report (text "NEW")].
Proof.
  apply (second_run_succeeds Windows windows_resolve (text "NEW")
           "C:\tmp\out.txt" windows_world).
  - vm_compute. reflexivity.
  - apply not_elem_of_empty.
Defined.

Lemma encode_windows_length s enc0 :
  Utf8.encode s = Some enc0 ->
  exists enc, Utf8.encode (translate_newlines (linesep Windows) s) = Some enc /\
              length enc = length enc0 + length (filter (fun c => c = LF) s).
Proof.
  revert enc0. induction s as [|c s IH]; intros enc0.
  - intros [= <-]. by exists [].
  - cbn [Utf8.encode]. destruct (Utf8.encode_char c) as [b|] eqn:Hb;
      [|discriminate].
    destruct (Utf8.encode s) as [bs|]; [|discriminate].
    intros [= <-]. destruct (IH bs eq_refl) as (enc & He & Hl).
    cbn [translate_newlines flat_map].
    fold (translate_newlines (linesep Windows) s).
    rewrite filter_cons.
    destruct (Z.eqb_spec c LF) as [->|Hc].
    + rewrite decide_True by reflexivity.
      assert (Hw : Utf8.encode (linesep Windows) = Some [13; 10]%Z)
        by reflexivity.
      rewrite (Utf8Facts.encode_app _ _ _ _ Hw He).
      eexists; split; [reflexivity|].
      vm_compute in Hb. injection Hb as <-. cbn [length app]. lia.
    + rewrite decide_False by exact Hc.
      cbn [app Utf8.encode]. rewrite Hb, He.
      eexists; split; [reflexivity|]. rewrite !length_app. lia.
Qed.

(** On Windows the file is longer than the UTF-8 encoding of the payload
    by one byte for each line feed of the payload. *)
Theorem windows_file_size resolve payload file s :
  (write_instructions Windows resolve payload file s).1 = Ok tt ->
  exists enc0,
    Utf8.encode payload = Some enc0 /\
    size_at (resolve file) (write_instructions Windows resolve payload file s).2
    = length enc0 + length (filter (fun c => c = LF) payload).
Proof.
  intros Hok. run_cases Windows resolve payload file s; try discriminate.
  unfold size_at, printed, set_file. cbn [nodes].
  rewrite lookup_insert_eq.
  destruct (Utf8.encode payload) as [enc0|] eqn:H0.
  - destruct (encode_windows_length payload enc0 H0) as (enc & He' & Hlen).
    exists enc0. split; [reflexivity|].
    rewrite He' in He. injection He as <-. exact Hlen.
  - apply (translate_newlines_encodable Windows) in H0. congruence.
Qed.

Lemma windows_file_size_witness :
  exists enc0,
    Utf8.encode (text "a" ++ [LF] ++ text "b") = Some enc0 /\
    size_at (windows_resolve "C:\tmp\out.txt")
      (write_instructions Windows windows_resolve
         (text "a" ++ [LF] ++ text "b") "C:\tmp\out.txt" windows_world).2
    = length enc0
      + length (filter (fun c => c = LF) (text "a" ++ [LF] ++ text "b")).
Proof.
  apply (windows_file_size windows_resolve (text "a" ++ [LF] ++ text "b")
           "C:\tmp\out.txt" windows_world).
  vm_compute. reflexivity.
Defined.

(** The script makes no directory and removes none: a location is a
    directory after the run exactly when it was one before.  In
    particular a missing parent directory is never created. *)
Theorem directories_untouched platform resolve payload file s q :
  nodes (write_instructions platform resolve payload file s).2 !! q
  = Some Dir <->
  nodes s !! q = Some Dir.
Proof.
  destruct (opened (resolve file) s) as [a|] eqn:Ha.
  - destruct (accepted_run_fs platform resolve payload file s a Ha)
      as (Hn & _ & _). rewrite Hn.
    destruct (decide (q = resolve file)) as [->|Hq].
    + rewrite lookup_insert_eq.
      destruct (opened_Some_inv _ _ _ Ha)
        as [(_ & old & -> & _)|(-> & _)]; split; discriminate.
    + rewrite lookup_insert_ne by congruence. reflexivity.
  - rewrite (refused_run_state _ _ _ _ _ Ha). reflexivity.
Qed.

Lemma directories_untouched_witness :
  nodes (write_instructions Posix posix_resolve (text "x")
           "/no/such/dir/out.txt" posix_world).2 !! ["no"; "such"; "dir"]
  = Some Dir <->
  nodes posix_world !! ["no"; "such"; "dir"] = Some Dir.
Proof.
  apply (directories_untouched Posix posix_resolve (text "x")
           "/no/such/dir/out.txt" posix_world ["no"; "such"; "dir"]).
Defined.

(** The [with] statement closes the file whatever its body does: for any
    body, returning or raising, the descriptor handed out by [open] is no
    longer open after the block. *)
Theorem with_open_closes platform resolve (A : Type) (body : nat -> M A)
    file s fd s1 :
  py_open platform resolve file s = (Ok fd, s1) ->
  handles (with_open platform resolve file body s).2 !! fd = None.
Proof.
  intros Hopen. unfold with_open, mbind, M_bind. rewrite Hopen.
  unfold finally. destruct (body fd s1) as [r s2].
  unfold f_close. destruct (handles s2 !! fd) as [h|] eqn:Hh.
  - destruct (nodes s2 !! h_path h) as [[data|]|].
    + destruct (decide _); unfold set_file; cbn [snd handles];
        apply lookup_delete_eq.
    + cbn [snd handles]. apply lookup_delete_eq.
    + cbn [snd handles]. apply lookup_delete_eq.
  - destruct r; cbn [snd]; exact Hh.
Qed.

Lemma with_open_closes_witness :
  handles (with_open Posix posix_resolve "/tmp/out.txt"
             (fun _ => raise (A := nat) ValueError) posix_world).2
    !! 0 = None.
Proof.
  eapply (with_open_closes Posix posix_resolve nat
            (fun _ => raise ValueError) "/tmp/out.txt" posix_world _
            (py_open Posix posix_resolve "/tmp/out.txt" posix_world).2).
  vm_compute. reflexivity.
Defined.


